(** * Appointment admission and lifecycle engine (main.py)

    A shallow embedding of the FastAPI endpoints [create_appointment],
    [accept_appointment] and [reject_appointment] of main.py, over a store
    of [AppointmentDB] rows, and the properties of the admission rules
    and of the status lifecycle.

    Conventions.
    - A Python [date] is kept by its proleptic Gregorian ordinal
      ([date.toordinal]): comparison of dates is comparison of ordinals and
      [date + timedelta(days=n)] adds [n] to the ordinal.  Python refuses
      ordinals outside years 1..9999 with OverflowError; the clock of the
      server is far inside that range and the model leaves that case out.
    - The table is a list of rows in insertion order; [query.filter(..).first()]
      is [find].
    - An HTTPException is a value of [Response]: nothing is raised. *)

From Stdlib Require Import ZArith List String Bool Lia Permutation.
Import ListNotations.
Local Open Scope Z_scope.

(** ** datetime, date and timedelta *)

Module Datetime.

(** [timedelta], normalised as Python keeps it: days, seconds in
    [0, 86400) and microseconds in [0, 10^6). *)
Record timedelta : Type := mk_timedelta
  { days : Z; seconds : Z; microseconds : Z }.

Definition us_per_second : Z := 1000000.
Definition seconds_per_day : Z := 86400.
Definition us_per_day : Z := seconds_per_day * us_per_second.

Definition total_us (td : timedelta) : Z :=
  (days td * seconds_per_day + seconds td) * us_per_second + microseconds td.

(** The constructor [timedelta(days=d, hours=h, minutes=m)] with its
    normalisation. *)
Definition timedelta_of (d h m : Z) : timedelta :=
  let us := ((d * 24 + h) * 60 + m) * 60 * us_per_second in
  {| days := us / us_per_day;
     seconds := (us mod us_per_day) / us_per_second;
     microseconds := us mod us_per_second |}.

(** A date, by its ordinal. *)
Definition date : Type := Z.

Definition is_leap (y : Z) : bool :=
  (y mod 4 =? 0) && (negb (y mod 100 =? 0) || (y mod 400 =? 0)).

Definition days_before_year (y : Z) : Z :=
  let p := y - 1 in p * 365 + p / 4 - p / 100 + p / 400.

Definition days_in_month (y m : Z) : Z :=
  if m =? 2 then (if is_leap y then 29 else 28)
  else if (m =? 4) || (m =? 6) || (m =? 9) || (m =? 11) then 30
  else 31.

Fixpoint days_before_month_from (y : Z) (m : nat) : Z :=
  match m with
  | O => 0
  | S k => days_before_month_from y k + days_in_month y (Z.of_nat (S k))
  end.

(** [date(y, m, d).toordinal()]. *)
Definition ymd (y m d : Z) : date :=
  days_before_year y + days_before_month_from y (Z.to_nat (m - 1)) + d.

(** [date + timedelta]: only the days of the timedelta count. *)
Definition date_add (d : date) (td : timedelta) : date := d + days td.

(** An aware or naive [datetime]: the calendar date and the wall-clock
    fields it carries, and the offset of its tzinfo in seconds east of UTC
    ([None] for a naive value). *)
Record datetime : Type := mk_datetime
  { dt_date : date;
    hour : Z;
    minute : Z;
    second : Z;
    microsecond : Z;
    utcoffset : option Z }.

(** [datetime.date()]. *)
Definition date_of (t : datetime) : date := dt_date t.

(** [datetime + timedelta]: the wall-clock fields are turned into one
    timedelta from ordinal 0, the argument is added, and the sum is split
    into date, hour, minute, second and microsecond again; the tzinfo is
    kept. *)
Definition add (t : datetime) (td : timedelta) : datetime :=
  let us :=
    ((dt_date t * seconds_per_day
      + hour t * 3600 + minute t * 60 + second t) * us_per_second
     + microsecond t) + total_us td in
  let d := us / us_per_day in
  let s := (us mod us_per_day) / us_per_second in
  let rem := s mod 3600 in
  {| dt_date := d;
     hour := s / 3600;
     minute := rem / 60;
     second := rem mod 60;
     microsecond := us mod us_per_second;
     utcoffset := utcoffset t |}.

(** The instant a value denotes, in microseconds from ordinal 0 at UTC.
    The column is [DateTime(timezone=True)]: the store keeps and compares
    instants, and reads a naive value in the zone of its session, UTC. *)
Definition instant (t : datetime) : Z :=
  let off := match utcoffset t with Some o => o | None => 0 end in
  (dt_date t * seconds_per_day
   + hour t * 3600 + minute t * 60 + second t - off) * us_per_second
  + microsecond t.

(** SQL [=] on the appointment_time column. *)
Definition same_instant (a b : datetime) : bool := instant a =? instant b.

(** Field ranges of a value Python can build. *)
Definition well_formed (t : datetime) : Prop :=
  0 <= hour t < 24 /\ 0 <= minute t < 60 /\ 0 <= second t < 60
  /\ 0 <= microsecond t < us_per_second.

(** [datetime(y, m, d, hh, mm, ss, tzinfo=timezone.utc)]. *)
Definition utc (y m d hh mm ss : Z) : datetime :=
  {| dt_date := ymd y m d; hour := hh; minute := mm; second := ss;
     microsecond := 0; utcoffset := Some 0 |}.

End Datetime.

Import Datetime.

(** ** The request model and the table *)

(** [Literal['approved', 'rejected', 'pending']]. *)
Inductive Status : Type := pending | approved | rejected.

(** The pydantic model of the request body. *)
Module Appoint.
Record t : Type := mk
  { id : string;
    name : string;
    email : string;
    appointment_time : datetime;
    status : Status }.

(** Validation of a body: [status] is [Field('pending', ..)], so a body
    without it gets [pending]. *)
Definition of_body (i n e : string) (at_ : datetime) (st : option Status) : t :=
  {| id := i; name := n; email := e; appointment_time := at_;
     status := match st with Some s => s | None => pending end |}.
End Appoint.

(** The SQLAlchemy model: one row of table appointments. *)
Module AppointmentDB.
Record t : Type := mk
  { id : string;
    name : string;
    email : string;
    appointment_time : datetime;
    status : Status;
    created_at : datetime }.

(** [appointment.status = s] on a loaded row. *)
Definition set_status (s : Status) (r : t) : t :=
  {| id := id r; name := name r; email := email r;
     appointment_time := appointment_time r;
     status := s; created_at := created_at r |}.
End AppointmentDB.

Definition Store : Type := list AppointmentDB.t.

(** The error kinds of the engine, one per [raise HTTPException] site:
    - [DuplicateId]: 'Appointment with ID .. already exists'
    - [SlotTaken]: 'Appointment time already exists'
    - [OutOfWindow]: 'Appointment must be for today or within the next 2 days ..'
    - [OffHours]: 'Appointment time must be between 9:00 AM and 7:00 PM ..'
    - [NotFound]: 'No appointment found with this id'
    - [StoreFailure]: 'Database error: ..' *)
Inductive ErrorKind : Type :=
  DuplicateId | SlotTaken | OutOfWindow | OffHours | NotFound | StoreFailure.

Inductive Response : Type :=
| JSONResponse (status_code : Z) (message : string) (appointment_id : string)
| HTTPException (status_code : Z) (detail : ErrorKind).

Definition HTTP_200_OK : Z := 200.
Definition HTTP_400_BAD_REQUEST : Z := 400.
Definition HTTP_404_NOT_FOUND : Z := 404.
Definition HTTP_500_INTERNAL_SERVER_ERROR : Z := 500.

(** ** Queries and writes of the session *)

(** [db.query(AppointmentDB).filter(AppointmentDB.id == i).first()]. *)
Definition first_by_id (i : string) (db : Store) : option AppointmentDB.t :=
  find (fun r => String.eqb (AppointmentDB.id r) i) db.

(** [db.query(AppointmentDB).filter(AppointmentDB.appointment_time == t).first()]. *)
Definition first_by_time (t : datetime) (db : Store) : option AppointmentDB.t :=
  find (fun r => same_instant (AppointmentDB.appointment_time r) t) db.

(** [db.add(row); db.commit()]: the table has [id] as primary key and a
    unique constraint on [appointment_time]; a row that breaks one of them
    makes the commit fail ([None]) and nothing is written. *)
Definition add_commit (row : AppointmentDB.t) (db : Store) : option Store :=
  if existsb (fun r => String.eqb (AppointmentDB.id r) (AppointmentDB.id row)) db
     || existsb (fun r => same_instant (AppointmentDB.appointment_time r)
                                       (AppointmentDB.appointment_time row)) db
  then None
  else Some (db ++ [row]).

(** [appointment.status = s; db.commit()] where [appointment] is the first
    row with id [i]. *)
Fixpoint update_status (i : string) (s : Status) (db : Store) : Store :=
  match db with
  | [] => []
  | r :: rest =>
      if String.eqb (AppointmentDB.id r) i
      then AppointmentDB.set_status s r :: rest
      else r :: update_status i s rest
  end.

(** ** The endpoints *)

Definition ist_offset : timedelta := timedelta_of 0 5 30.

(** [today_ist_date <= appointment_date <= latest_allowed_date]. *)
Definition in_window (now : datetime) (appointment_dt : datetime) : bool :=
  let current_ist_time := add now ist_offset in
  let today_ist_date := date_of current_ist_time in
  let appointment_date := date_of appointment_dt in
  let latest_allowed_date := date_add today_ist_date (timedelta_of 2 0 0) in
  (today_ist_date <=? appointment_date) && (appointment_date <=? latest_allowed_date).

(** [9 <= appointment_dt_ist.hour < 19 and appointment_dt_ist.minute == 0]. *)
Definition business_hours (appointment_dt_ist : datetime) : bool :=
  (9 <=? hour appointment_dt_ist) && (hour appointment_dt_ist <? 19)
  && (minute appointment_dt_ist =? 0).

(** POST /create.  The two queries read the table as the session sees it
    ([seen]); the commit goes to the table as it is then ([db]), which
    differs from [seen] when another request has committed in between.
    [now] is [datetime.now(timezone.utc)]. *)
Definition create_appointment_at
    (new_appoint : Appoint.t) (now : datetime) (seen db : Store)
  : Response * Store :=
  match first_by_id (Appoint.id new_appoint) seen with
  | Some _ => (HTTPException HTTP_400_BAD_REQUEST DuplicateId, db)
  | None =>
      let current_utc_time := now in
      let current_ist_time := add current_utc_time ist_offset in
      let appointment_dt_ist := Appoint.appointment_time new_appoint in
      let new_appointment_time_utc := Appoint.appointment_time new_appoint in
      match first_by_time new_appointment_time_utc seen with
      | Some _ => (HTTPException HTTP_400_BAD_REQUEST SlotTaken, db)
      | None =>
          if negb (in_window now appointment_dt_ist) then
            (HTTPException HTTP_400_BAD_REQUEST OutOfWindow, db)
          else if negb (business_hours appointment_dt_ist) then
            (HTTPException HTTP_400_BAD_REQUEST OffHours, db)
          else
            let db_appointment :=
              {| AppointmentDB.id := Appoint.id new_appoint;
                 AppointmentDB.name := Appoint.name new_appoint;
                 AppointmentDB.email := Appoint.email new_appoint;
                 AppointmentDB.appointment_time := new_appointment_time_utc;
                 AppointmentDB.status := Appoint.status new_appoint;
                 AppointmentDB.created_at := current_ist_time |} in
            match add_commit db_appointment db with
            | Some db' =>
                (JSONResponse HTTP_200_OK "Appointment created successfully"
                   (AppointmentDB.id db_appointment), db')
            | None =>
                (* except SQLAlchemyError: db.rollback() *)
                (HTTPException HTTP_500_INTERNAL_SERVER_ERROR StoreFailure, db)
            end
      end
  end.

(** One request at a time: the session reads the table it commits to. *)
Definition create_appointment
    (new_appoint : Appoint.t) (now : datetime) (db : Store) : Response * Store :=
  create_appointment_at new_appoint now db db.

(** PUT /accept/{id}. *)
Definition accept_appointment (i : string) (db : Store) : Response * Store :=
  match first_by_id i db with
  | Some appointment =>
      (JSONResponse HTTP_200_OK "Appointment accepted successfully"
         (AppointmentDB.id appointment),
       update_status i approved db)
  | None => (HTTPException HTTP_404_NOT_FOUND NotFound, db)
  end.

(** PUT /reject/{id}. *)
Definition reject_appointment (i : string) (db : Store) : Response * Store :=
  match first_by_id i db with
  | Some appointment =>
      (JSONResponse HTTP_200_OK "Appointment rejected successfully"
         (AppointmentDB.id appointment),
       update_status i rejected db)
  | None => (HTTPException HTTP_404_NOT_FOUND NotFound, db)
  end.

(** ** The admission rules as the specification lists them

    The four checks of admission in their order, each with the rejection it
    stands for; [first_failure] returns the rejection of the first check
    that fails.  The endpoint is compared with this list below. *)

Definition is_some {A : Type} (o : option A) : bool :=
  match o with Some _ => true | None => false end.

Definition admission_checks
    (candidate : Appoint.t) (now : datetime) (seen : Store)
  : list (bool * ErrorKind) :=
  [ (is_some (first_by_id (Appoint.id candidate) seen), DuplicateId);
    (is_some (first_by_time (Appoint.appointment_time candidate) seen), SlotTaken);
    (negb (in_window now (Appoint.appointment_time candidate)), OutOfWindow);
    (negb (business_hours (Appoint.appointment_time candidate)), OffHours) ].

Fixpoint first_failure (checks : list (bool * ErrorKind)) : option ErrorKind :=
  match checks with
  | [] => None
  | (failed, kind) :: rest => if failed then Some kind else first_failure rest
  end.

(** The row that admission writes for a candidate. *)
Definition row_of (candidate : Appoint.t) (now : datetime) : AppointmentDB.t :=
  {| AppointmentDB.id := Appoint.id candidate;
     AppointmentDB.name := Appoint.name candidate;
     AppointmentDB.email := Appoint.email candidate;
     AppointmentDB.appointment_time := Appoint.appointment_time candidate;
     AppointmentDB.status := Appoint.status candidate;
     AppointmentDB.created_at := add now ist_offset |}.

(** ** Reachable stores *)

Inductive Op : Type :=
| Create (new_appoint : Appoint.t) (now : datetime) (seen : Store)
| Accept (i : string)
| Reject (i : string).

Definition run (op : Op) (db : Store) : Response * Store :=
  match op with
  | Create new_appoint now seen => create_appointment_at new_appoint now seen db
  | Accept i => accept_appointment i db
  | Reject i => reject_appointment i db
  end.

Inductive reachable : Store -> Prop :=
| reachable_empty : reachable []
| reachable_run (op : Op) (db : Store) :
    reachable db -> reachable (snd (run op db)).

Definition slot (r : AppointmentDB.t) : Z :=
  instant (AppointmentDB.appointment_time r).

Definition unique_ids (db : Store) : Prop := NoDup (map AppointmentDB.id db).
Definition unique_slots (db : Store) : Prop := NoDup (map slot db).

(** ** Sample data *)

Module Sample.
(** 2025-07-16 03:00 UTC, that is 08:30 on the shifted clock. *)
Definition now : datetime := utc 2025 7 16 3 0 0.

Definition jane (t : datetime) (st : option Status) : Appoint.t :=
  Appoint.of_body "1" "Jane" "jane@example.com" t st.

Definition john (t : datetime) (st : option Status) : Appoint.t :=
  Appoint.of_body "2" "John Doe" "john.doe@example.com" t st.

Definition ten : datetime := utc 2025 7 16 10 0 0.
Definition eleven : datetime := utc 2025 7 16 11 0 0.

(** The store after Jane was admitted at ten. *)
Definition booked : Store := [row_of (jane ten None) now].
End Sample.

(** ** The read endpoints *)

Definition Status_eqb (a b : Status) : bool :=
  match a, b with
  | pending, pending | approved, approved | rejected, rejected => true
  | _, _ => false
  end.

(** GET /view: [db.query(AppointmentDB).all()]. *)
Definition view (db : Store) : list AppointmentDB.t := db.

(** GET /detail/{id}: the first row of the id, or the 404. *)
Definition view_appointment (i : string) (db : Store)
  : AppointmentDB.t + Response :=
  match first_by_id i db with
  | Some appointment => inl appointment
  | None => inr (HTTPException HTTP_404_NOT_FOUND NotFound)
  end.

(** GET /pending: [filter(AppointmentDB.status == 'pending').all()]. *)
Definition get_pending_appointments (db : Store) : list AppointmentDB.t :=
  filter (fun r => Status_eqb (AppointmentDB.status r) pending) db.

(** GET /approved. *)
Definition get_approved_appointments (db : Store) : list AppointmentDB.t :=
  filter (fun r => Status_eqb (AppointmentDB.status r) approved) db.

(** GET /rejected. *)
Definition get_rejected_appointments (db : Store) : list AppointmentDB.t :=
  filter (fun r => Status_eqb (AppointmentDB.status r) rejected) db.

(** The table after a sequence of requests, served one after the other. *)
Fixpoint run_all (ops : list Op) (db : Store) : Store :=
  match ops with
  | [] => db
  | op :: rest => run_all rest (snd (run op db))
  end.

(** What admission has checked of a stored row, read on the row itself:
    its time is in business hours and its date is the date of [created_at]
    or one of the two days after it. *)
Definition admitted_row (r : AppointmentDB.t) : Prop :=
  business_hours (AppointmentDB.appointment_time r) = true
  /\ date_of (AppointmentDB.created_at r)
     <= date_of (AppointmentDB.appointment_time r)
     <= date_of (AppointmentDB.created_at r) + 2.

(** ** Lookups *)

Section Lookups.
Variable db : Store.

Lemma first_by_id_found (i : string) (r : AppointmentDB.t) :
  first_by_id i db = Some r -> In r db /\ AppointmentDB.id r = i.
Proof.
  unfold first_by_id. intros H. apply find_some in H.
  destruct H as [Hin Heq]. apply String.eqb_eq in Heq. auto.
Qed.

Lemma first_by_id_absent (i : string) :
  first_by_id i db = None <-> ~ In i (map AppointmentDB.id db).
Proof.
  unfold first_by_id. split.
  - intros H Hin. apply in_map_iff in Hin. destruct Hin as [r [Hr Hin]].
    apply (find_none _ _ H) in Hin. simpl in Hin.
    rewrite Hr, String.eqb_refl in Hin. discriminate.
  - intros H. destruct (find _ db) as [r|] eqn:E; [|reflexivity].
    apply find_some in E. destruct E as [Hin Heq].
    apply String.eqb_eq in Heq. exfalso. apply H.
    apply in_map_iff. exists r. auto.
Qed.

Lemma first_by_time_absent (t : datetime) :
  first_by_time t db = None <-> ~ In (instant t) (map slot db).
Proof.
  unfold first_by_time, same_instant, slot. split.
  - intros H Hin. apply in_map_iff in Hin. destruct Hin as [r [Hr Hin]].
    apply (find_none _ _ H) in Hin. simpl in Hin.
    rewrite Hr, Z.eqb_refl in Hin. discriminate.
  - intros H. destruct (find _ db) as [r|] eqn:E; [|reflexivity].
    apply find_some in E. destruct E as [Hin Heq].
    apply Z.eqb_eq in Heq. exfalso. apply H.
    apply in_map_iff. exists r. auto.
Qed.

Lemma existsb_find_none {A : Type} (f : A -> bool) (l : list A) :
  find f l = None -> existsb f l = false.
Proof.
  induction l as [|a l IH]; simpl; [reflexivity|].
  destruct (f a); [discriminate | exact IH].
Qed.

(** A row that passed both lookups on the table it is committed to is
    accepted by the constraints of the table. *)
Lemma add_commit_after_lookups (row : AppointmentDB.t) :
  first_by_id (AppointmentDB.id row) db = None ->
  first_by_time (AppointmentDB.appointment_time row) db = None ->
  add_commit row db = Some (db ++ [row]).
Proof.
  unfold first_by_id, first_by_time, add_commit. intros Hid Htime.
  apply existsb_find_none in Hid. apply existsb_find_none in Htime.
  rewrite Hid, Htime. reflexivity.
Qed.
End Lookups.

(** ** The shifted clock *)

Lemma ist_offset_value :
  ist_offset = {| days := 0; seconds := 19800; microseconds := 0 |}.
Proof. reflexivity. Qed.

(** Adding 5:30 to a well-formed clock value moves the date to the next day
    from 18:30 on, and leaves it alone before. *)
Lemma today_ist_date (now : datetime) :
  well_formed now ->
  date_of (add now ist_offset) =
    dt_date now + (if 18 * 60 + 30 <=? hour now * 60 + minute now then 1 else 0).
Proof.
  intros (Hh & Hm & Hs & Hu). rewrite ist_offset_value.
  unfold date_of, add, total_us, us_per_day, seconds_per_day,
    us_per_second in *.
  cbn [dt_date days seconds microseconds].
  symmetry.
  destruct (Z.leb_spec (18 * 60 + 30) (hour now * 60 + minute now)).
  - apply Z.div_unique with
      (r := ((hour now * 3600 + minute now * 60 + second now - 66600) * 1000000
             + microsecond now)); lia.
  - apply Z.div_unique with
      (r := ((hour now * 3600 + minute now * 60 + second now + 19800) * 1000000
             + microsecond now)); lia.
Qed.

(** ** Admission *)

Ltac admission :=
  unfold create_appointment, create_appointment_at, admission_checks,
    first_failure, is_some in *.

(** The response of the endpoint when a check of the list fails. *)
Lemma create_appointment_first_failure
    (new : Appoint.t) (now : datetime) (seen db : Store) (k : ErrorKind) :
  first_failure (admission_checks new now seen) = Some k ->
  create_appointment_at new now seen db = (HTTPException HTTP_400_BAD_REQUEST k, db).
Proof.
  admission.
  destruct (first_by_id _ seen); [congruence|].
  destruct (first_by_time _ seen); [congruence|].
  destruct (in_window _ _); simpl; [|congruence].
  destruct (business_hours _); simpl; congruence.
Qed.

(** The response of the endpoint when no check of the list fails: the
    outcome of the commit. *)
Lemma create_appointment_no_failure
    (new : Appoint.t) (now : datetime) (seen db : Store) :
  first_failure (admission_checks new now seen) = None ->
  create_appointment_at new now seen db =
    match add_commit (row_of new now) db with
    | Some db' =>
        (JSONResponse HTTP_200_OK "Appointment created successfully"
           (Appoint.id new), db')
    | None => (HTTPException HTTP_500_INTERNAL_SERVER_ERROR StoreFailure, db)
    end.
Proof.
  admission.
  destruct (first_by_id _ seen); [discriminate|].
  destruct (first_by_time _ seen); [discriminate|].
  destruct (in_window _ _); simpl; [|discriminate].
  destruct (business_hours _); simpl; [|discriminate].
  reflexivity.
Qed.

Lemma in_window_spec (now t : datetime) :
  in_window now t = true <->
  date_of (add now ist_offset) <= date_of t <= date_of (add now ist_offset) + 2.
Proof.
  unfold in_window, date_add. cbn [timedelta_of days].
  change (days (timedelta_of 2 0 0)) with 2.
  rewrite andb_true_iff, !Z.leb_le. tauto.
Qed.

Lemma business_hours_spec (t : datetime) :
  business_hours t = true <-> (9 <= hour t < 19 /\ minute t = 0).
Proof.
  unfold business_hours.
  rewrite !andb_true_iff, Z.leb_le, Z.ltb_lt, Z.eqb_eq. tauto.
Qed.

(** C1.  Admission applies its checks in the order duplicate id, slot
    taken, date window, business hours, and answers with the rejection of
    the first one that fails: a reused id is DuplicateId whatever the time
    is, a taken slot under a fresh id is SlotTaken whatever the date is, a
    date out of the window under a fresh id and a free slot is OutOfWindow
    whatever the hour is, and OffHours is left for candidates that pass
    the three others.  No rejection writes to the store. *)
Theorem create_appointment_check_order
    (new : Appoint.t) (now : datetime) (seen db : Store) :
  let answer := create_appointment_at new now seen db in
  let reject k := (HTTPException HTTP_400_BAD_REQUEST k, db) in
  (forall k, first_failure (admission_checks new now seen) = Some k ->
             answer = reject k)
  /\ (is_some (first_by_id (Appoint.id new) seen) = true ->
      answer = reject DuplicateId)
  /\ (first_by_id (Appoint.id new) seen = None ->
      is_some (first_by_time (Appoint.appointment_time new) seen) = true ->
      answer = reject SlotTaken)
  /\ (first_by_id (Appoint.id new) seen = None ->
      first_by_time (Appoint.appointment_time new) seen = None ->
      in_window now (Appoint.appointment_time new) = false ->
      answer = reject OutOfWindow)
  /\ (first_by_id (Appoint.id new) seen = None ->
      first_by_time (Appoint.appointment_time new) seen = None ->
      in_window now (Appoint.appointment_time new) = true ->
      business_hours (Appoint.appointment_time new) = false ->
      answer = reject OffHours).
Proof.
  intros answer reject. subst answer reject.
  split; [intros k; apply create_appointment_first_failure|].
  repeat split; intros; apply create_appointment_first_failure; admission;
    repeat match goal with
           | H : _ = _ |- _ => rewrite H; clear H
           end; reflexivity.
Qed.

(** A candidate that reuses both the id and the time of a stored
    appointment is DuplicateId; a candidate with a fresh id whose slot is
    taken and whose date has left the window is SlotTaken. *)
Lemma create_appointment_check_order_witness :
  create_appointment_at (Sample.jane Sample.ten None) Sample.now
      Sample.booked Sample.booked
    = (HTTPException HTTP_400_BAD_REQUEST DuplicateId, Sample.booked)
  /\ in_window (utc 2025 7 20 3 0 0) Sample.ten = false
  /\ create_appointment_at (Sample.john Sample.ten None) (utc 2025 7 20 3 0 0)
       Sample.booked Sample.booked
     = (HTTPException HTTP_400_BAD_REQUEST SlotTaken, Sample.booked).
Proof.
  split; [|split].
  - apply (proj1 (proj2 (create_appointment_check_order
                           (Sample.jane Sample.ten None) Sample.now
                           Sample.booked Sample.booked))).
    reflexivity.
  - reflexivity.
  - apply (proj1 (proj2 (proj2 (create_appointment_check_order
                                  (Sample.john Sample.ten None)
                                  (utc 2025 7 20 3 0 0)
                                  Sample.booked Sample.booked))));
      reflexivity.
Defined.

(** C2.  A candidate with a fresh id and a free slot is rejected with
    OutOfWindow exactly when the date of its appointment_time is before
    today or after today + 2 days, where today is the date of now + 5:30;
    the dates that are not rejected so are today and the two days after
    it. *)
Theorem create_appointment_window
    (new : Appoint.t) (now : datetime) (seen db : Store)
    (Hid : first_by_id (Appoint.id new) seen = None)
    (Htime : first_by_time (Appoint.appointment_time new) seen = None) :
  let today := date_of (add now (timedelta_of 0 5 30)) in
  let requested := date_of (Appoint.appointment_time new) in
  let answer := create_appointment_at new now seen db in
  (answer = (HTTPException HTTP_400_BAD_REQUEST OutOfWindow, db)
   <-> requested < today \/ today + 2 < requested)
  /\ (fst answer <> HTTPException HTTP_400_BAD_REQUEST OutOfWindow
      <-> requested = today \/ requested = today + 1 \/ requested = today + 2).
Proof.
  intros today requested answer.
  assert (Hw : in_window now (Appoint.appointment_time new) = true
               <-> today <= requested <= today + 2) by apply in_window_spec.
  assert (Hans : answer = (HTTPException HTTP_400_BAD_REQUEST OutOfWindow, db)
                 <-> in_window now (Appoint.appointment_time new) = false).
  { subst answer. admission. rewrite Hid, Htime.
    destruct (in_window _ _); simpl.
    - split; [|discriminate].
      destruct (business_hours _); simpl; [|discriminate].
      destruct (add_commit _ _); discriminate.
    - split; reflexivity. }
  assert (Hfst : fst answer = HTTPException HTTP_400_BAD_REQUEST OutOfWindow
                 <-> in_window now (Appoint.appointment_time new) = false).
  { subst answer. admission. rewrite Hid, Htime.
    destruct (in_window _ _); simpl.
    - split; [|discriminate].
      destruct (business_hours _); simpl; [|discriminate].
      destruct (add_commit _ _); discriminate.
    - split; reflexivity. }
  split.
  - rewrite Hans. destruct (in_window _ _).
    + split; [discriminate|]. intros H. apply proj1 in Hw.
      specialize (Hw eq_refl). lia.
    + split; [|reflexivity]. intros _.
      destruct (Z_lt_dec requested today); [auto|].
      destruct (Z_lt_dec (today + 2) requested); [auto|].
      assert (false = true) by (apply Hw; lia). discriminate.
  - rewrite Hfst. destruct (in_window _ _).
    + split; [|discriminate]. intros _. apply proj1 in Hw.
      specialize (Hw eq_refl). lia.
    + split; [intros H; exfalso; apply H; reflexivity|].
      intros H. assert (false = true) by (apply Hw; lia). discriminate.
Qed.

(** On 2025-07-16 (shifted clock) a request for 2025-07-19 is rejected with
    OutOfWindow. *)
Lemma create_appointment_window_witness :
  create_appointment_at (Sample.jane (utc 2025 7 19 10 0 0) None) Sample.now [] []
  = (HTTPException HTTP_400_BAD_REQUEST OutOfWindow, []).
Proof.
  apply (proj1 (create_appointment_window
                  (Sample.jane (utc 2025 7 19 10 0 0) None) Sample.now [] []
                  eq_refl eq_refl)).
  right. vm_compute. reflexivity.
Defined.

(** C3.  A candidate with a fresh id, a free slot and a date in the window
    is rejected with OffHours exactly when it is not the case that
    9 <= hour < 19 and minute = 0 for its appointment_time: 19:00, 8:00 and
    every time with a non-zero minute are rejected, and 09:00, 10:00, ..,
    18:00 on the hour are not. *)
Theorem create_appointment_business_hours
    (new : Appoint.t) (now : datetime) (seen db : Store)
    (Hid : first_by_id (Appoint.id new) seen = None)
    (Htime : first_by_time (Appoint.appointment_time new) seen = None)
    (Hwindow : in_window now (Appoint.appointment_time new) = true) :
  let t := Appoint.appointment_time new in
  let answer := create_appointment_at new now seen db in
  let off_hours := (HTTPException HTTP_400_BAD_REQUEST OffHours, db) in
  (answer = off_hours <-> ~ (9 <= hour t < 19 /\ minute t = 0))
  /\ (hour t = 19 -> answer = off_hours)
  /\ (hour t = 8 -> answer = off_hours)
  /\ (minute t <> 0 -> answer = off_hours)
  /\ (9 <= hour t <= 18 -> minute t = 0 ->
      fst answer <> HTTPException HTTP_400_BAD_REQUEST OffHours).
Proof.
  intros t answer off_hours.
  assert (Hb := business_hours_spec t).
  assert (Hoff : business_hours t = false -> answer = off_hours).
  { intros E. subst answer off_hours t. admission.
    rewrite Hid, Htime, Hwindow, E. reflexivity. }
  assert (Hon : business_hours t = true ->
                fst answer <> HTTPException HTTP_400_BAD_REQUEST OffHours).
  { intros E. subst answer t. admission.
    rewrite Hid, Htime, Hwindow, E. simpl.
    destruct (add_commit _ _); discriminate. }
  assert (Hcases : business_hours t = false
                   <-> ~ (9 <= hour t < 19 /\ minute t = 0)).
  { rewrite <- Hb. destruct (business_hours t); split; congruence. }
  split; [|repeat split].
  - split.
    + intros E. apply Hcases. destruct (business_hours t); [|reflexivity].
      exfalso. apply (Hon eq_refl). rewrite E. reflexivity.
    + intros H. apply Hoff, Hcases, H.
  - intros H. apply Hoff, Hcases. lia.
  - intros H. apply Hoff, Hcases. lia.
  - intros H. apply Hoff, Hcases. lia.
  - intros Hh Hm. apply Hon, Hb. lia.
Qed.

(** 19:00 today is rejected with OffHours. *)
Lemma create_appointment_business_hours_witness :
  create_appointment_at (Sample.jane (utc 2025 7 16 19 0 0) None) Sample.now [] []
  = (HTTPException HTTP_400_BAD_REQUEST OffHours, []).
Proof.
  apply (proj1 (proj2 (create_appointment_business_hours
                         (Sample.jane (utc 2025 7 16 19 0 0) None) Sample.now
                         [] [] eq_refl eq_refl eq_refl))).
  reflexivity.
Defined.

(** C5.  A candidate that passes the four checks is written as one new row
    at the end of the table, with the id, name, email and appointment_time
    of the candidate, the status of the request body (pending when the body
    has none) and created_at = now + 5:30; the answer is a success with the
    id of the candidate, and the rows that were there are as they were. *)
Theorem create_appointment_persists
    (i n e : string) (t : datetime) (st : option Status)
    (now : datetime) (db : Store)
    (Hid : first_by_id i db = None)
    (Htime : first_by_time t db = None)
    (Hwindow : in_window now t = true)
    (Hhours : business_hours t = true) :
  create_appointment (Appoint.of_body i n e t st) now db =
    (JSONResponse HTTP_200_OK "Appointment created successfully" i,
     db ++ [ {| AppointmentDB.id := i;
                AppointmentDB.name := n;
                AppointmentDB.email := e;
                AppointmentDB.appointment_time := t;
                AppointmentDB.status :=
                  match st with Some s => s | None => pending end;
                AppointmentDB.created_at := add now (timedelta_of 0 5 30) |} ]).
Proof.
  unfold create_appointment.
  rewrite create_appointment_no_failure.
  - unfold row_of, Appoint.of_body. cbn [Appoint.id Appoint.name Appoint.email
      Appoint.appointment_time Appoint.status].
    rewrite add_commit_after_lookups by assumption. reflexivity.
  - admission. cbn [Appoint.of_body Appoint.id Appoint.appointment_time].
    rewrite Hid, Htime, Hwindow, Hhours. reflexivity.
Qed.

(** Jane at ten, with no status in the body, is stored as pending. *)
Lemma create_appointment_persists_witness :
  create_appointment (Sample.jane Sample.ten None) Sample.now [] =
    (JSONResponse HTTP_200_OK "Appointment created successfully" "1",
     [ {| AppointmentDB.id := "1";
          AppointmentDB.name := "Jane";
          AppointmentDB.email := "jane@example.com";
          AppointmentDB.appointment_time := Sample.ten;
          AppointmentDB.status := pending;
          AppointmentDB.created_at := utc 2025 7 16 8 30 0 |} ]).
Proof.
  exact (create_appointment_persists "1" "Jane" "jane@example.com" Sample.ten
           None Sample.now [] eq_refl eq_refl eq_refl eq_refl).
Defined.

(** ** Uniqueness of ids and slots *)

Lemma update_status_map {B : Type} (f : AppointmentDB.t -> B)
    (i : string) (s : Status) (db : Store) :
  (forall r, f (AppointmentDB.set_status s r) = f r) ->
  map f (update_status i s db) = map f db.
Proof.
  intros Hf. induction db as [|r rest IH]; simpl; [reflexivity|].
  destruct (String.eqb _ i); simpl; [rewrite Hf | rewrite IH]; reflexivity.
Qed.

Lemma update_status_ids (i : string) (s : Status) (db : Store) :
  map AppointmentDB.id (update_status i s db) = map AppointmentDB.id db.
Proof. apply update_status_map. reflexivity. Qed.

Lemma update_status_slots (i : string) (s : Status) (db : Store) :
  map slot (update_status i s db) = map slot db.
Proof. apply update_status_map. reflexivity. Qed.

Create Rewrite HintDb store.
#[local] Hint Rewrite update_status_ids update_status_slots : store.

(** The commit fails exactly on a violation of one of the two constraints. *)
Lemma add_commit_violation (row : AppointmentDB.t) (db : Store) :
  add_commit row db = None <->
  In (AppointmentDB.id row) (map AppointmentDB.id db)
  \/ In (slot row) (map slot db).
Proof.
  unfold add_commit.
  match goal with
  | |- (if ?a || ?b then _ else _) = _ <-> _ =>
      assert (Hids : a = true
                     <-> In (AppointmentDB.id row) (map AppointmentDB.id db));
      [| assert (Hslots : b = true <-> In (slot row) (map slot db));
         [| destruct a, b; simpl; split; intros H; try reflexivity;
            try discriminate; intuition congruence ] ]
  end.
  - rewrite existsb_exists, in_map_iff.
    split; intros [r [H1 H2]]; exists r.
    + apply String.eqb_eq in H2. auto.
    + split; [assumption|]. apply String.eqb_eq. assumption.
  - rewrite existsb_exists, in_map_iff. unfold slot, same_instant.
    split; intros [r [H1 H2]]; exists r.
    + apply Z.eqb_eq in H2. auto.
    + split; [assumption|]. apply Z.eqb_eq. assumption.
Qed.

Lemma add_commit_written (row : AppointmentDB.t) (db db' : Store) :
  add_commit row db = Some db' -> db' = db ++ [row].
Proof.
  unfold add_commit. destruct (_ || _); [discriminate|]. congruence.
Qed.

Lemma add_commit_unique (row : AppointmentDB.t) (db db' : Store) :
  add_commit row db = Some db' ->
  unique_ids db /\ unique_slots db -> unique_ids db' /\ unique_slots db'.
Proof.
  intros Hc [Hids Hslots].
  assert (Hfree : ~ (In (AppointmentDB.id row) (map AppointmentDB.id db)
                     \/ In (slot row) (map slot db))).
  { rewrite <- add_commit_violation. congruence. }
  apply add_commit_written in Hc. subst db'.
  unfold unique_ids, unique_slots. rewrite !map_app. simpl.
  split; apply NoDup_app; try assumption;
    try (constructor; [intros [] | constructor]);
    intros a Ha [Hb | []]; subst a; tauto.
Qed.

Lemma run_unique (op : Op) (db : Store) :
  unique_ids db /\ unique_slots db ->
  unique_ids (snd (run op db)) /\ unique_slots (snd (run op db)).
Proof.
  intros Hinv. destruct op as [new now seen | i | i]; simpl.
  - unfold create_appointment_at.
    destruct (first_by_id _ seen); [assumption|].
    destruct (first_by_time _ seen); [assumption|].
    destruct (in_window _ _); simpl; [|assumption].
    destruct (business_hours _); simpl; [|assumption].
    destruct (add_commit _ db) as [db'|] eqn:Hc; simpl; [|assumption].
    eapply add_commit_unique; eassumption.
  - unfold accept_appointment. destruct (first_by_id i db); simpl; [|assumption].
    unfold unique_ids, unique_slots. autorewrite with store. assumption.
  - unfold reject_appointment. destruct (first_by_id i db); simpl; [|assumption].
    unfold unique_ids, unique_slots. autorewrite with store. assumption.
Qed.

(** Two rows at two places of a list without duplicate keys have two keys. *)
Lemma NoDup_map_places {B : Type} (f : AppointmentDB.t -> B) (db : Store)
    (i j : nat) (r1 r2 : AppointmentDB.t) :
  NoDup (map f db) ->
  nth_error db i = Some r1 -> nth_error db j = Some r2 ->
  i <> j -> f r1 <> f r2.
Proof.
  intros Hnd H1 H2 Hij Heq. apply Hij.
  apply (proj1 (NoDup_nth_error (map f db)) Hnd).
  - rewrite length_map. apply nth_error_Some. congruence.
  - rewrite (map_nth_error f _ _ H1), (map_nth_error f _ _ H2). congruence.
Qed.

(** C4.  In every store that a sequence of admissions and transitions
    reaches from the empty table (each admission reading any table and
    committing to the current one), the ids have no duplicate and the
    appointment times have no duplicate, so that two stored appointments
    have two ids and two times; and every operation keeps this. *)
Theorem store_uniqueness (db : Store) (Hreach : reachable db) :
  (unique_ids db /\ unique_slots db)
  /\ (forall (i j : nat) (r1 r2 : AppointmentDB.t),
         nth_error db i = Some r1 -> nth_error db j = Some r2 -> i <> j ->
         AppointmentDB.id r1 <> AppointmentDB.id r2
         /\ same_instant (AppointmentDB.appointment_time r1)
                         (AppointmentDB.appointment_time r2) = false
         /\ AppointmentDB.appointment_time r1 <> AppointmentDB.appointment_time r2)
  /\ (forall (op : Op) (db' : Store),
         unique_ids db' /\ unique_slots db' ->
         unique_ids (snd (run op db')) /\ unique_slots (snd (run op db'))).
Proof.
  assert (Hinv : unique_ids db /\ unique_slots db).
  { induction Hreach as [|op db Hreach IH].
    - split; constructor.
    - apply run_unique, IH. }
  split; [exact Hinv|]. split; [|intros op db'; apply run_unique].
  intros i j r1 r2 H1 H2 Hij. destruct Hinv as [Hids Hslots].
  split; [exact (NoDup_map_places _ db i j r1 r2 Hids H1 H2 Hij)|].
  assert (Hs := NoDup_map_places _ db i j r1 r2 Hslots H1 H2 Hij).
  unfold slot in Hs. split.
  - unfold same_instant. apply Z.eqb_neq. exact Hs.
  - congruence.
Qed.

(** The table after Jane and then John were admitted and Jane accepted. *)
Lemma store_uniqueness_witness :
  let db := snd (run (Accept "1")
             (snd (run (Create (Sample.john Sample.eleven None) Sample.now
                          Sample.booked)
                (snd (run (Create (Sample.jane Sample.ten None) Sample.now [])
                        []))))) in
  List.length db = 2%nat /\ unique_ids db /\ unique_slots db.
Proof.
  intros db. split; [reflexivity|].
  refine (proj1 (store_uniqueness db _)).
  subst db. do 3 apply reachable_run. apply reachable_empty.
Defined.

(** ** A commit that loses the race *)

(** C6, as stated, fails.  John asks for ten while the table the session
    reads is empty; Jane's appointment at ten is committed before John's
    commit.  The four checks pass, the commit breaks the constraint on
    appointment_time, and the answer is the 500 of the database error, not
    a 400 with DuplicateId or SlotTaken. *)
Lemma create_appointment_commit_failure_counterexample :
  first_failure (admission_checks (Sample.john Sample.ten None) Sample.now [])
    = None
  /\ In (slot (row_of (Sample.john Sample.ten None) Sample.now))
        (map slot Sample.booked)
  /\ add_commit (row_of (Sample.john Sample.ten None) Sample.now) Sample.booked
     = None
  /\ create_appointment_at (Sample.john Sample.ten None) Sample.now []
       Sample.booked
     = (HTTPException HTTP_500_INTERNAL_SERVER_ERROR StoreFailure, Sample.booked)
  /\ fst (create_appointment_at (Sample.john Sample.ten None) Sample.now []
            Sample.booked)
     <> HTTPException HTTP_400_BAD_REQUEST SlotTaken
  /\ fst (create_appointment_at (Sample.john Sample.ten None) Sample.now []
            Sample.booked)
     <> HTTPException HTTP_400_BAD_REQUEST DuplicateId.
Proof.
  repeat split; try reflexivity; try discriminate.
  left. reflexivity.
Qed.

(** C6, amended.  When the four checks pass on the table the session reads
    and the commit breaks the primary key or the unique constraint of the
    table it writes to, the write is rolled back: the answer is the 500 of
    the database error (StoreFailure) and the table is as it was. *)
Theorem create_appointment_commit_failure
    (new : Appoint.t) (now : datetime) (seen db : Store)
    (Hchecks : first_failure (admission_checks new now seen) = None)
    (Hviolation : In (Appoint.id new) (map AppointmentDB.id db)
                  \/ In (instant (Appoint.appointment_time new)) (map slot db)) :
  add_commit (row_of new now) db = None
  /\ create_appointment_at new now seen db =
       (HTTPException HTTP_500_INTERNAL_SERVER_ERROR StoreFailure, db).
Proof.
  assert (Hc : add_commit (row_of new now) db = None).
  { apply add_commit_violation. exact Hviolation. }
  split; [exact Hc|].
  rewrite create_appointment_no_failure by exact Hchecks.
  rewrite Hc. reflexivity.
Qed.

Lemma create_appointment_commit_failure_witness :
  create_appointment_at (Sample.john Sample.ten None) Sample.now [] Sample.booked
  = (HTTPException HTTP_500_INTERNAL_SERVER_ERROR StoreFailure, Sample.booked).
Proof.
  refine (proj2 (create_appointment_commit_failure
                   (Sample.john Sample.ten None) Sample.now [] Sample.booked
                   eq_refl _)).
  right. left. reflexivity.
Defined.

(** ** Transitions *)

Lemma update_status_first (i : string) (s : Status) (db : Store)
    (r : AppointmentDB.t) :
  first_by_id i db = Some r ->
  first_by_id i (update_status i s db) = Some (AppointmentDB.set_status s r).
Proof.
  unfold first_by_id. induction db as [|x rest IH]; simpl; [discriminate|].
  destruct (String.eqb (AppointmentDB.id x) i) eqn:E; simpl.
  - intros H. injection H as <-.
    cbn [AppointmentDB.set_status AppointmentDB.id]. rewrite E. reflexivity.
  - rewrite E. exact IH.
Qed.

Lemma update_status_twice (i : string) (s : Status) (db : Store) :
  update_status i s (update_status i s db) = update_status i s db.
Proof.
  induction db as [|x rest IH]; simpl; [reflexivity|].
  destruct (String.eqb (AppointmentDB.id x) i) eqn:E; simpl.
  - cbn [AppointmentDB.set_status AppointmentDB.id]. rewrite E. reflexivity.
  - rewrite E, IH. reflexivity.
Qed.

(** C7.  For an id that no stored appointment has, accept and reject both
    answer NotFound (404) and leave the table as it was. *)
Theorem transition_not_found (i : string) (db : Store)
    (Habsent : ~ In i (map AppointmentDB.id db)) :
  accept_appointment i db = (HTTPException HTTP_404_NOT_FOUND NotFound, db)
  /\ reject_appointment i db = (HTTPException HTTP_404_NOT_FOUND NotFound, db).
Proof.
  apply first_by_id_absent in Habsent.
  unfold accept_appointment, reject_appointment. rewrite Habsent. split; reflexivity.
Qed.

Lemma transition_not_found_witness :
  accept_appointment "7" Sample.booked
    = (HTTPException HTTP_404_NOT_FOUND NotFound, Sample.booked)
  /\ reject_appointment "7" Sample.booked
     = (HTTPException HTTP_404_NOT_FOUND NotFound, Sample.booked).
Proof.
  apply (transition_not_found "7" Sample.booked).
  simpl. intros [H | []]. discriminate H.
Defined.

(** C8.  For an id that a stored appointment has, accept answers with a
    success carrying the id and leaves the first row of that id with status
    approved, whatever its status was; a second accept answers the same and
    leaves the table of the first accept as it is. *)
Theorem accept_appointment_idempotent (i : string) (db : Store)
    (Hpresent : In i (map AppointmentDB.id db)) :
  let ok := JSONResponse HTTP_200_OK "Appointment accepted successfully" i in
  let db1 := snd (accept_appointment i db) in
  let db2 := snd (accept_appointment i db1) in
  exists r : AppointmentDB.t,
    first_by_id i db = Some r
    /\ fst (accept_appointment i db) = ok
    /\ first_by_id i db1 = Some (AppointmentDB.set_status approved r)
    /\ fst (accept_appointment i db1) = ok
    /\ first_by_id i db2 = Some (AppointmentDB.set_status approved r)
    /\ db2 = db1.
Proof.
  intros ok db1 db2.
  destruct (first_by_id i db) as [r|] eqn:Hr.
  2:{ exfalso. apply first_by_id_absent in Hr. exact (Hr Hpresent). }
  destruct (first_by_id_found db i r Hr) as [_ Hi].
  assert (H1 : accept_appointment i db = (ok, update_status i approved db)).
  { unfold accept_appointment. rewrite Hr, Hi. reflexivity. }
  assert (Hr1 := update_status_first i approved db r Hr).
  assert (E1 : db1 = update_status i approved db) by (subst db1; rewrite H1; reflexivity).
  assert (H2 : accept_appointment i db1 = (ok, db1)).
  { unfold accept_appointment. rewrite E1, Hr1.
    cbn [AppointmentDB.set_status AppointmentDB.id].
    rewrite Hi, update_status_twice. reflexivity. }
  assert (E2 : db2 = db1) by (subst db2; rewrite H2; reflexivity).
  exists r. repeat split.
  - rewrite H1. reflexivity.
  - rewrite E1. exact Hr1.
  - rewrite H2. reflexivity.
  - rewrite E2, E1. exact Hr1.
  - exact E2.
Qed.

(** Accepting twice an appointment that was stored as rejected. *)
Lemma accept_appointment_idempotent_witness :
  let db := [row_of (Sample.jane Sample.ten (Some rejected)) Sample.now] in
  let approved_db := [row_of (Sample.jane Sample.ten (Some approved)) Sample.now] in
  snd (accept_appointment "1" db) = approved_db
  /\ snd (accept_appointment "1" (snd (accept_appointment "1" db))) = approved_db
  /\ exists r : AppointmentDB.t,
       first_by_id "1" db = Some r
       /\ fst (accept_appointment "1" (snd (accept_appointment "1" db)))
          = JSONResponse HTTP_200_OK "Appointment accepted successfully" "1".
Proof.
  intros db approved_db. split; [reflexivity|]. split; [reflexivity|].
  destruct (accept_appointment_idempotent "1" db (or_introl eq_refl))
    as [r [Hr [_ [_ [Hok _]]]]].
  exists r. split; [exact Hr | exact Hok].
Defined.

(** ** What admission does not restrict *)

(** C9.  The business-hours check reads the hour and the minute of
    appointment_time and nothing else: two values with the same hour and
    minute get the same verdict.  A request for 10:00:30 today is admitted
    and the row that is written keeps the 30 seconds. *)
Theorem business_hours_ignores_seconds :
  (forall (h m : Z) (d d' s s' us us' : Z) (off off' : option Z),
      business_hours (mk_datetime d h m s us off)
      = business_hours (mk_datetime d' h m s' us' off'))
  /\ minute (utc 2025 7 16 10 0 30) = 0
  /\ second (utc 2025 7 16 10 0 30) = 30
  /\ create_appointment (Sample.jane (utc 2025 7 16 10 0 30) None) Sample.now []
     = (JSONResponse HTTP_200_OK "Appointment created successfully" "1",
        [row_of (Sample.jane (utc 2025 7 16 10 0 30) None) Sample.now])
  /\ map (fun r => second (AppointmentDB.appointment_time r))
       (snd (create_appointment (Sample.jane (utc 2025 7 16 10 0 30) None)
               Sample.now []))
     = [30].
Proof.
  split; [intros; reflexivity|]. repeat split.
Qed.

(** C10.  A request whose body carries status approved, or rejected, is
    admitted with that status: from the empty table, one admission and no
    transition gives a table whose only row is approved, or rejected. *)
Theorem create_appointment_keeps_status :
  run (Create (Sample.jane Sample.ten (Some approved)) Sample.now []) []
    = (JSONResponse HTTP_200_OK "Appointment created successfully" "1",
       [row_of (Sample.jane Sample.ten (Some approved)) Sample.now])
  /\ map AppointmentDB.status
       (snd (run (Create (Sample.jane Sample.ten (Some approved)) Sample.now [])
               []))
     = [approved]
  /\ run (Create (Sample.john Sample.eleven (Some rejected)) Sample.now []) []
     = (JSONResponse HTTP_200_OK "Appointment created successfully" "2",
        [row_of (Sample.john Sample.eleven (Some rejected)) Sample.now])
  /\ map AppointmentDB.status
       (snd (run (Create (Sample.john Sample.eleven (Some rejected)) Sample.now
                    []) []))
     = [rejected].
Proof.
  repeat split.
Qed.

(** ** The outcomes of admission *)

Lemma first_by_id_app (i : string) (a b : Store) :
  first_by_id i (a ++ b) =
    match first_by_id i a with
    | Some r => Some r
    | None => first_by_id i b
    end.
Proof.
  unfold first_by_id. induction a as [|x a IH]; simpl; [reflexivity|].
  destruct (String.eqb _ i); [reflexivity | exact IH].
Qed.

Lemma first_failure_kinds (new : Appoint.t) (now : datetime) (seen : Store)
    (k : ErrorKind) :
  first_failure (admission_checks new now seen) = Some k ->
  In k [DuplicateId; SlotTaken; OutOfWindow; OffHours].
Proof.
  unfold admission_checks, first_failure.
  repeat match goal with
         | |- (if ?b then _ else _) = _ -> _ => destruct b
         end; intros H; try discriminate; injection H as <-; simpl; tauto.
Qed.

Lemma first_failure_none (new : Appoint.t) (now : datetime) (seen : Store) :
  first_failure (admission_checks new now seen) = None ->
  first_by_id (Appoint.id new) seen = None
  /\ first_by_time (Appoint.appointment_time new) seen = None
  /\ in_window now (Appoint.appointment_time new) = true
  /\ business_hours (Appoint.appointment_time new) = true.
Proof.
  admission.
  destruct (first_by_id _ seen); [discriminate|].
  destruct (first_by_time _ seen); [discriminate|].
  destruct (in_window _ _); simpl; [|discriminate].
  destruct (business_hours _); simpl; [|discriminate].
  auto.
Qed.

Lemma add_commit_fresh (row : AppointmentDB.t) (db db' : Store) :
  add_commit row db = Some db' ->
  db' = db ++ [row]
  /\ ~ In (AppointmentDB.id row) (map AppointmentDB.id db)
  /\ ~ In (slot row) (map slot db).
Proof.
  intros Hc.
  assert (Hfree : ~ (In (AppointmentDB.id row) (map AppointmentDB.id db)
                     \/ In (slot row) (map slot db))).
  { rewrite <- add_commit_violation. congruence. }
  apply add_commit_written in Hc. tauto.
Qed.

(** X13.  Admission has three outcomes and no other: a 400 with one of the
    four rejections and the table as it was; the 500 of the database error
    and the table as it was; or the 200 with the id of the candidate and
    the table with the row of the candidate added at its end, the id and
    the time of that row being new to the table. *)
Theorem create_appointment_outcome
    (new : Appoint.t) (now : datetime) (seen db : Store) :
  let answer := create_appointment_at new now seen db in
  (exists k : ErrorKind,
      In k [DuplicateId; SlotTaken; OutOfWindow; OffHours]
      /\ answer = (HTTPException HTTP_400_BAD_REQUEST k, db))
  \/ answer = (HTTPException HTTP_500_INTERNAL_SERVER_ERROR StoreFailure, db)
  \/ (answer = (JSONResponse HTTP_200_OK "Appointment created successfully"
                  (Appoint.id new), db ++ [row_of new now])
      /\ ~ In (Appoint.id new) (map AppointmentDB.id db)
      /\ ~ In (instant (Appoint.appointment_time new)) (map slot db)
      /\ in_window now (Appoint.appointment_time new) = true
      /\ business_hours (Appoint.appointment_time new) = true).
Proof.
  intros answer. subst answer.
  destruct (first_failure (admission_checks new now seen)) as [k|] eqn:Hk.
  - left. exists k. split; [exact (first_failure_kinds _ _ _ _ Hk)|].
    apply create_appointment_first_failure, Hk.
  - right. rewrite (create_appointment_no_failure _ _ _ _ Hk).
    destruct (add_commit (row_of new now) db) as [db'|] eqn:Hc;
      [right | left; reflexivity].
    apply add_commit_fresh in Hc. destruct Hc as (-> & Hi & Hs).
    apply first_failure_none in Hk. destruct Hk as (_ & _ & Hw & Hb).
    repeat split; assumption.
Qed.

(** The shape of a successful admission. *)
Lemma create_appointment_success
    (new : Appoint.t) (now : datetime) (seen db db' : Store)
    (code : Z) (message aid : string) :
  create_appointment_at new now seen db = (JSONResponse code message aid, db') ->
  aid = Appoint.id new /\ db' = db ++ [row_of new now]
  /\ ~ In (Appoint.id new) (map AppointmentDB.id db)
  /\ ~ In (instant (Appoint.appointment_time new)) (map slot db)
  /\ in_window now (Appoint.appointment_time new) = true
  /\ business_hours (Appoint.appointment_time new) = true.
Proof.
  intros H.
  destruct (first_failure (admission_checks new now seen)) as [k|] eqn:Hk.
  - rewrite (create_appointment_first_failure _ _ _ _ _ Hk) in H. discriminate.
  - rewrite (create_appointment_no_failure _ _ _ _ Hk) in H.
    destruct (add_commit (row_of new now) db) as [db1|] eqn:Hc; [|discriminate].
    injection H as _ _ <- <-.
    apply add_commit_fresh in Hc. destruct Hc as (-> & Hi & Hs).
    apply first_failure_none in Hk. destruct Hk as (_ & _ & Hw & Hb).
    repeat split; assumption.
Qed.

(** X14.  Served one request at a time, admission never answers with the
    database error: a candidate that passes the two lookups on the table
    cannot break the constraints of that same table. *)
Theorem create_appointment_no_store_failure
    (new : Appoint.t) (now : datetime) (db : Store) (code : Z) :
  fst (create_appointment new now db) <> HTTPException code StoreFailure.
Proof.
  unfold create_appointment.
  destruct (first_failure (admission_checks new now db)) as [k|] eqn:Hk.
  - rewrite (create_appointment_first_failure _ _ _ _ _ Hk). simpl.
    apply first_failure_kinds in Hk. simpl in Hk.
    intros E. injection E as _ ->. intuition discriminate.
  - rewrite (create_appointment_no_failure _ _ _ _ Hk).
    apply first_failure_none in Hk. destruct Hk as (Hid & Htime & _).
    rewrite add_commit_after_lookups by assumption. discriminate.
Qed.

(** X1.  After a successful admission the answer carries the id of the
    candidate, GET /detail of that id returns the row that was written,
    and GET /view is the former list followed by that row. *)
Theorem create_then_view_appointment
    (new : Appoint.t) (now : datetime) (seen db db' : Store)
    (code : Z) (message aid : string)
    (Hcreated : create_appointment_at new now seen db
                = (JSONResponse code message aid, db')) :
  aid = Appoint.id new
  /\ view_appointment aid db' = inl (row_of new now)
  /\ view db' = view db ++ [row_of new now].
Proof.
  apply create_appointment_success in Hcreated.
  destruct Hcreated as (-> & -> & Hid & _).
  split; [reflexivity|]. split; [|reflexivity].
  unfold view_appointment. rewrite first_by_id_app.
  apply first_by_id_absent in Hid. rewrite Hid.
  unfold first_by_id. simpl. rewrite String.eqb_refl. reflexivity.
Qed.

Lemma create_then_view_appointment_witness :
  view_appointment "2"
    (snd (create_appointment (Sample.john Sample.eleven None) Sample.now
            Sample.booked))
  = inl (row_of (Sample.john Sample.eleven None) Sample.now).
Proof.
  refine (proj1 (proj2 (create_then_view_appointment
                          (Sample.john Sample.eleven None) Sample.now
                          Sample.booked Sample.booked _ _ _ _ eq_refl))).
Defined.

(** X15.  After a successful admission, the same request sent again is
    rejected with DuplicateId at any later clock value, and a request
    under an id that is not stored for the same instant is rejected with
    SlotTaken; neither changes the table. *)
Theorem create_appointment_again
    (new : Appoint.t) (now : datetime) (db db' : Store)
    (code : Z) (message aid : string)
    (Hcreated : create_appointment new now db
                = (JSONResponse code message aid, db')) :
  (forall later : datetime,
      create_appointment new later db'
      = (HTTPException HTTP_400_BAD_REQUEST DuplicateId, db'))
  /\ (forall (other : Appoint.t) (later : datetime),
         ~ In (Appoint.id other) (map AppointmentDB.id db') ->
         same_instant (Appoint.appointment_time new)
                      (Appoint.appointment_time other) = true ->
         create_appointment other later db'
         = (HTTPException HTTP_400_BAD_REQUEST SlotTaken, db')).
Proof.
  apply create_appointment_success in Hcreated.
  destruct Hcreated as (_ & -> & _).
  assert (Hin : In (row_of new now) (db ++ [row_of new now])).
  { apply in_or_app. right. left. reflexivity. }
  split.
  - intros later. apply create_appointment_first_failure. admission.
    destruct (first_by_id _ _) eqn:E; [reflexivity|].
    apply first_by_id_absent in E. exfalso. apply E.
    apply in_map_iff. exists (row_of new now). auto.
  - intros other later Hfresh Hsame.
    apply create_appointment_first_failure. admission.
    apply first_by_id_absent in Hfresh. rewrite Hfresh.
    destruct (first_by_time _ _) eqn:E; [reflexivity|].
    apply first_by_time_absent in E. exfalso. apply E.
    apply in_map_iff. exists (row_of new now). split; [|exact Hin].
    unfold slot, same_instant in *. simpl. apply Z.eqb_eq. exact Hsame.
Qed.

Lemma create_appointment_again_witness :
  create_appointment (Sample.jane Sample.ten None) (utc 2025 7 16 4 0 0)
    Sample.booked
  = (HTTPException HTTP_400_BAD_REQUEST DuplicateId, Sample.booked).
Proof.
  exact (proj1 (create_appointment_again (Sample.jane Sample.ten None)
                  Sample.now [] Sample.booked _ _ _ eq_refl)
           (utc 2025 7 16 4 0 0)).
Defined.

(** ** Lookups and transitions together *)

Lemma update_status_absent (i : string) (s : Status) (db : Store) :
  first_by_id i db = None -> update_status i s db = db.
Proof.
  unfold first_by_id. induction db as [|x rest IH]; simpl; [reflexivity|].
  destruct (String.eqb _ i); [discriminate|].
  intros H. rewrite (IH H). reflexivity.
Qed.

(** On the table, accept and reject are [update_status], found or not. *)
Lemma accept_appointment_store (i : string) (db : Store) :
  snd (accept_appointment i db) = update_status i approved db.
Proof.
  unfold accept_appointment. destruct (first_by_id i db) eqn:E; simpl;
    [reflexivity | symmetry; apply update_status_absent, E].
Qed.

Lemma reject_appointment_store (i : string) (db : Store) :
  snd (reject_appointment i db) = update_status i rejected db.
Proof.
  unfold reject_appointment. destruct (first_by_id i db) eqn:E; simpl;
    [reflexivity | symmetry; apply update_status_absent, E].
Qed.

Lemma accept_appointment_found (i : string) (db : Store) :
  In i (map AppointmentDB.id db) ->
  fst (accept_appointment i db)
  = JSONResponse HTTP_200_OK "Appointment accepted successfully" i.
Proof.
  intros Hin. unfold accept_appointment.
  destruct (first_by_id i db) as [r|] eqn:E.
  - apply first_by_id_found in E. destruct E as [_ <-]. reflexivity.
  - apply first_by_id_absent in E. contradiction.
Qed.

Lemma reject_appointment_found (i : string) (db : Store) :
  In i (map AppointmentDB.id db) ->
  fst (reject_appointment i db)
  = JSONResponse HTTP_200_OK "Appointment rejected successfully" i.
Proof.
  intros Hin. unfold reject_appointment.
  destruct (first_by_id i db) as [r|] eqn:E.
  - apply first_by_id_found in E. destruct E as [_ <-]. reflexivity.
  - apply first_by_id_absent in E. contradiction.
Qed.

(** X2.  GET /detail, PUT /accept and PUT /reject agree on which ids
    exist: each of them answers 404 exactly for the ids that no row of the
    table has, and a row that GET /detail returns is a row of the table
    with the id that was asked for. *)
Theorem not_found_agreement (i : string) (db : Store) :
  (view_appointment i db = inr (HTTPException HTTP_404_NOT_FOUND NotFound)
   <-> ~ In i (map AppointmentDB.id (view db)))
  /\ (fst (accept_appointment i db) = HTTPException HTTP_404_NOT_FOUND NotFound
      <-> ~ In i (map AppointmentDB.id (view db)))
  /\ (fst (reject_appointment i db) = HTTPException HTTP_404_NOT_FOUND NotFound
      <-> ~ In i (map AppointmentDB.id (view db)))
  /\ (forall r : AppointmentDB.t,
         view_appointment i db = inl r ->
         In r (view db) /\ AppointmentDB.id r = i).
Proof.
  unfold view, view_appointment, accept_appointment, reject_appointment.
  rewrite <- first_by_id_absent.
  destruct (first_by_id i db) as [r|] eqn:E; simpl.
  - do 3 (split; [split; discriminate|]).
    intros r0 H. injection H as <-. exact (first_by_id_found db i r E).
  - do 3 (split; [split; reflexivity|]).
    intros r0 H. discriminate H.
Qed.

Lemma not_found_agreement_witness :
  view_appointment "7" Sample.booked
  = inr (HTTPException HTTP_404_NOT_FOUND NotFound).
Proof.
  apply (proj1 (not_found_agreement "7" Sample.booked)).
  simpl. intros [H | []]. discriminate H.
Defined.

Lemma update_status_overwrite (i : string) (s1 s2 : Status) (db : Store) :
  update_status i s2 (update_status i s1 db) = update_status i s2 db.
Proof.
  induction db as [|x rest IH]; simpl; [reflexivity|].
  destruct (String.eqb (AppointmentDB.id x) i) eqn:E; simpl.
  - cbn [AppointmentDB.set_status AppointmentDB.id]. rewrite E. reflexivity.
  - rewrite E, IH. reflexivity.
Qed.

(** X5.  The last transition wins: rejecting an appointment that was
    accepted, or accepting one that was rejected, succeeds and gives the
    table that the second transition alone gives. *)
Theorem transition_overwrites (i : string) (db : Store)
    (Hpresent : In i (map AppointmentDB.id db)) :
  reject_appointment i (snd (accept_appointment i db))
  = (JSONResponse HTTP_200_OK "Appointment rejected successfully" i,
     snd (reject_appointment i db))
  /\ accept_appointment i (snd (reject_appointment i db))
     = (JSONResponse HTTP_200_OK "Appointment accepted successfully" i,
        snd (accept_appointment i db)).
Proof.
  split; apply injective_projections; simpl.
  - apply reject_appointment_found.
    rewrite accept_appointment_store, update_status_ids. exact Hpresent.
  - rewrite !reject_appointment_store, accept_appointment_store.
    apply update_status_overwrite.
  - apply accept_appointment_found.
    rewrite reject_appointment_store, update_status_ids. exact Hpresent.
  - rewrite !accept_appointment_store, reject_appointment_store.
    apply update_status_overwrite.
Qed.

Lemma transition_overwrites_witness :
  map AppointmentDB.status
    (snd (reject_appointment "1" (snd (accept_appointment "1" Sample.booked))))
  = [rejected].
Proof.
  rewrite (proj1 (transition_overwrites "1" Sample.booked (or_introl eq_refl))).
  reflexivity.
Defined.

Lemma update_status_commute (i j : string) (s s' : Status) (db : Store) :
  i <> j ->
  update_status i s (update_status j s' db)
  = update_status j s' (update_status i s db).
Proof.
  intros Hij. induction db as [|x rest IH]; simpl; [reflexivity|].
  destruct (String.eqb (AppointmentDB.id x) j) eqn:Ej;
    destruct (String.eqb (AppointmentDB.id x) i) eqn:Ei; simpl;
    cbn [AppointmentDB.set_status AppointmentDB.id]; rewrite ?Ei, ?Ej.
  - apply String.eqb_eq in Ei, Ej. congruence.
  - reflexivity.
  - reflexivity.
  - rewrite IH. reflexivity.
Qed.

(** X6.  Transitions on two different ids commute: the table after both
    does not depend on which of them was served first. *)
Theorem transitions_commute (i j : string) (db : Store) (Hij : i <> j) :
  snd (accept_appointment i (snd (reject_appointment j db)))
  = snd (reject_appointment j (snd (accept_appointment i db)))
  /\ snd (accept_appointment i (snd (accept_appointment j db)))
     = snd (accept_appointment j (snd (accept_appointment i db)))
  /\ snd (reject_appointment i (snd (reject_appointment j db)))
     = snd (reject_appointment j (snd (reject_appointment i db))).
Proof.
  rewrite !accept_appointment_store, !reject_appointment_store.
  repeat split; apply update_status_commute; exact Hij.
Qed.

Lemma transitions_commute_witness :
  let db := [row_of (Sample.jane Sample.ten None) Sample.now;
             row_of (Sample.john Sample.eleven None) Sample.now] in
  map AppointmentDB.status
    (snd (accept_appointment "1" (snd (reject_appointment "2" db))))
  = [approved; rejected]
  /\ snd (accept_appointment "1" (snd (reject_appointment "2" db)))
     = snd (reject_appointment "2" (snd (accept_appointment "1" db))).
Proof.
  intros db. split; [reflexivity|].
  refine (proj1 (transitions_commute "1" "2" db _)). discriminate.
Defined.

(** ** What a transition changes *)

Lemma update_status_others (i : string) (s : Status) (db : Store) :
  filter (fun r => negb (String.eqb (AppointmentDB.id r) i)) (update_status i s db)
  = filter (fun r => negb (String.eqb (AppointmentDB.id r) i)) db.
Proof.
  induction db as [|x rest IH]; simpl; [reflexivity|].
  destruct (String.eqb (AppointmentDB.id x) i) eqn:E; simpl.
  - cbn [AppointmentDB.set_status AppointmentDB.id]. rewrite E. reflexivity.
  - rewrite E, IH. reflexivity.
Qed.

(** X7.  A transition changes the status column and nothing else: with
    the status of every row erased the table after accept, or reject, is
    the table before, and the rows of the other ids are the same rows, in
    the same order. *)
Theorem transition_changes_status_only (i : string) (db : Store) :
  let erase := map (AppointmentDB.set_status pending) in
  let others := filter (fun r => negb (String.eqb (AppointmentDB.id r) i)) in
  erase (snd (accept_appointment i db)) = erase db
  /\ others (snd (accept_appointment i db)) = others db
  /\ erase (snd (reject_appointment i db)) = erase db
  /\ others (snd (reject_appointment i db)) = others db.
Proof.
  intros erase others. subst erase others.
  rewrite accept_appointment_store, reject_appointment_store.
  repeat split;
    solve [ apply update_status_map; reflexivity | apply update_status_others ].
Qed.

Lemma update_status_unique (i : string) (s : Status) (db : Store)
    (r : AppointmentDB.t) :
  unique_ids db ->
  In r (update_status i s db) -> AppointmentDB.id r = i ->
  AppointmentDB.status r = s.
Proof.
  unfold unique_ids. induction db as [|x rest IH]; simpl; [tauto|].
  intros Hnd Hin Hid. apply NoDup_cons_iff in Hnd. destruct Hnd as [Hx Hnd].
  destruct (String.eqb (AppointmentDB.id x) i) eqn:E.
  - apply String.eqb_eq in E. destruct Hin as [<- | Hin]; [reflexivity|].
    exfalso. apply Hx. rewrite E, <- Hid. apply in_map. exact Hin.
  - destruct Hin as [<- | Hin].
    + apply String.eqb_neq in E. contradiction.
    + apply IH; assumption.
Qed.

Lemma Status_eqb_eq (a b : Status) : Status_eqb a b = true <-> a = b.
Proof. destruct a, b; simpl; split; congruence. Qed.

(** The id [i] has no row of a status other than [s] after
    [update_status i s], and has a row of status [s] if it had a row. *)
Lemma update_status_lists (i : string) (s s' : Status) (db : Store) :
  unique_ids db ->
  In i (map AppointmentDB.id
          (filter (fun r => Status_eqb (AppointmentDB.status r) s')
             (update_status i s db)))
  <-> In i (map AppointmentDB.id db) /\ s' = s.
Proof.
  intros Hu. rewrite in_map_iff. split.
  - intros [r [Hid Hin]]. apply filter_In in Hin. destruct Hin as [Hin Hs].
    apply Status_eqb_eq in Hs. split.
    + rewrite <- (update_status_ids i s db). apply in_map_iff.
      exists r. split; assumption.
    + rewrite <- Hs. apply (update_status_unique i s db r Hu Hin Hid).
  - intros [Hin ->].
    destruct (first_by_id i db) as [r|] eqn:E.
    2:{ apply first_by_id_absent in E. contradiction. }
    assert (E' := update_status_first i s db r E).
    apply first_by_id_found in E'. destruct E' as [Hin' Hid'].
    exists (AppointmentDB.set_status s r). split; [exact Hid'|].
    apply filter_In. split; [exact Hin'|]. simpl. apply Status_eqb_eq. reflexivity.
Qed.

(** X4.  On a table without duplicate ids, after accept of a stored id
    GET /approved lists that id and GET /pending and GET /rejected do not;
    after reject, GET /rejected lists it and the two others do not. *)
Theorem transition_moves_between_lists (i : string) (db : Store)
    (Hunique : unique_ids db)
    (Hpresent : In i (map AppointmentDB.id db)) :
  let ids := map AppointmentDB.id in
  let accepted := snd (accept_appointment i db) in
  let refused := snd (reject_appointment i db) in
  (In i (ids (get_approved_appointments accepted))
   /\ ~ In i (ids (get_pending_appointments accepted))
   /\ ~ In i (ids (get_rejected_appointments accepted)))
  /\ (In i (ids (get_rejected_appointments refused))
      /\ ~ In i (ids (get_pending_appointments refused))
      /\ ~ In i (ids (get_approved_appointments refused))).
Proof.
  intros ids accepted refused. subst ids accepted refused.
  rewrite accept_appointment_store, reject_appointment_store.
  unfold get_approved_appointments, get_pending_appointments,
    get_rejected_appointments.
  rewrite !(update_status_lists _ _ _ _ Hunique).
  repeat split; try assumption; intros [_ H]; discriminate H.
Qed.

Lemma transition_moves_between_lists_witness :
  map AppointmentDB.id
    (get_approved_appointments (snd (accept_appointment "1" Sample.booked)))
  = ["1"%string]
  /\ In "1"%string
       (map AppointmentDB.id
          (get_approved_appointments
             (snd (accept_appointment "1" Sample.booked)))).
Proof.
  split; [reflexivity|].
  refine (proj1 (proj1 (transition_moves_between_lists "1" Sample.booked _ _))).
  - repeat constructor. simpl. tauto.
  - left. reflexivity.
Defined.

(** X3.  The three status lists split the table: GET /pending,
    GET /approved and GET /rejected together hold the rows of GET /view,
    each row as many times as it is stored, and each list holds rows of
    its own status only. *)
Theorem status_lists_partition (db : Store) :
  Permutation
    (get_pending_appointments db ++ get_approved_appointments db
     ++ get_rejected_appointments db)
    (view db)
  /\ Forall (fun r => AppointmentDB.status r = pending)
       (get_pending_appointments db)
  /\ Forall (fun r => AppointmentDB.status r = approved)
       (get_approved_appointments db)
  /\ Forall (fun r => AppointmentDB.status r = rejected)
       (get_rejected_appointments db).
Proof.
  unfold get_pending_appointments, get_approved_appointments,
    get_rejected_appointments, view.
  split.
  - induction db as [|x rest IH]; simpl; [constructor|].
    destruct (AppointmentDB.status x); simpl.
    + constructor. exact IH.
    + apply Permutation_sym, Permutation_cons_app, Permutation_sym, IH.
    + apply Permutation_sym. rewrite app_assoc.
      apply Permutation_cons_app. rewrite <- app_assoc.
      apply Permutation_sym, IH.
  - repeat split; apply Forall_forall; intros r Hin;
      apply filter_In in Hin; destruct Hin as [_ Hs];
      apply Status_eqb_eq in Hs; exact Hs.
Qed.

(** ** What no request undoes *)

Lemma set_status_own (r : AppointmentDB.t) :
  AppointmentDB.set_status (AppointmentDB.status r) r = r.
Proof. destruct r. reflexivity. Qed.

Lemma first_by_id_update_status (i j : string) (s : Status) (db : Store) :
  first_by_id i (update_status j s db) =
    if String.eqb j i
    then option_map (AppointmentDB.set_status s) (first_by_id i db)
    else first_by_id i db.
Proof.
  unfold first_by_id. induction db as [|x rest IH]; simpl.
  - destruct (String.eqb j i); reflexivity.
  - destruct (String.eqb (AppointmentDB.id x) j) eqn:Ej; simpl.
    + apply String.eqb_eq in Ej. subst j.
      cbn [AppointmentDB.set_status AppointmentDB.id].
      destruct (String.eqb (AppointmentDB.id x) i); reflexivity.
    + destruct (String.eqb (AppointmentDB.id x) i) eqn:Ei.
      * apply String.eqb_eq in Ei. subst i.
        assert (Hj : String.eqb j (AppointmentDB.id x) = false)
          by (rewrite String.eqb_sym; exact Ej).
        rewrite Hj. reflexivity.
      * exact IH.
Qed.

(** An admission that answers with an exception has written nothing. *)
Lemma create_appointment_failed
    (new : Appoint.t) (now : datetime) (seen db db' : Store)
    (code : Z) (detail : ErrorKind) :
  create_appointment_at new now seen db = (HTTPException code detail, db') ->
  db' = db.
Proof.
  unfold create_appointment_at. intros E.
  destruct (first_by_id _ seen); [congruence|].
  destruct (first_by_time _ seen); [congruence|].
  destruct (in_window _ _); simpl in E; [|congruence].
  destruct (business_hours _); simpl in E; [|congruence].
  destruct (add_commit _ db); congruence.
Qed.

Lemma create_appointment_store
    (new : Appoint.t) (now : datetime) (seen db : Store) :
  snd (create_appointment_at new now seen db) = db
  \/ (snd (create_appointment_at new now seen db) = db ++ [row_of new now]
      /\ in_window now (Appoint.appointment_time new) = true
      /\ business_hours (Appoint.appointment_time new) = true).
Proof.
  destruct (create_appointment_at new now seen db) as [answer db'] eqn:E.
  destruct answer as [code message aid | code detail]; simpl.
  - apply create_appointment_success in E. right. tauto.
  - apply create_appointment_failed in E. left. exact E.
Qed.

(** One request keeps the first row of an id, up to its status. *)
Lemma run_keeps_row (op : Op) (db : Store) (i : string) (r : AppointmentDB.t) :
  first_by_id i db = Some r ->
  exists s : Status,
    first_by_id i (snd (run op db)) = Some (AppointmentDB.set_status s r).
Proof.
  intros Hr.
  assert (Hsame : first_by_id i db
                  = Some (AppointmentDB.set_status (AppointmentDB.status r) r))
    by (rewrite set_status_own; exact Hr).
  assert (Hupd : forall j s, exists s0,
               first_by_id i (update_status j s db)
               = Some (AppointmentDB.set_status s0 r)).
  { intros j s. rewrite first_by_id_update_status, Hr.
    destruct (String.eqb j i); simpl;
      [exists s | exists (AppointmentDB.status r); rewrite set_status_own];
      reflexivity. }
  destruct op as [new now seen | j | j]; simpl.
  - destruct (create_appointment_at new now seen db) as [answer db'] eqn:E.
    destruct answer as [code message aid | code detail]; simpl.
    + apply create_appointment_success in E. destruct E as (_ & -> & _).
      exists (AppointmentDB.status r). rewrite first_by_id_app, Hr.
      rewrite set_status_own. reflexivity.
    + exists (AppointmentDB.status r).
      apply create_appointment_failed in E. rewrite E. exact Hsame.
  - rewrite accept_appointment_store. apply Hupd.
  - rewrite reject_appointment_store. apply Hupd.
Qed.

(** X8.  No sequence of requests deletes an appointment or changes its
    id, name, email, appointment_time or created_at: an id that GET
    /detail finds is found after any sequence of admissions and
    transitions, with the same row up to its status. *)
Theorem appointment_never_deleted
    (ops : list Op) (db : Store) (i : string) (r : AppointmentDB.t)
    (Hfound : view_appointment i db = inl r) :
  exists s : Status,
    view_appointment i (run_all ops db) = inl (AppointmentDB.set_status s r).
Proof.
  assert (Hr : first_by_id i db = Some r).
  { unfold view_appointment in Hfound.
    destruct (first_by_id i db); [congruence | discriminate]. }
  clear Hfound.
  assert (H : exists s, first_by_id i (run_all ops db)
                        = Some (AppointmentDB.set_status s r)).
  { revert db r Hr. induction ops as [|op rest IH]; intros db r Hr; simpl.
    - exists (AppointmentDB.status r). rewrite set_status_own. exact Hr.
    - destruct (run_keeps_row op db i r Hr) as [s Hs].
      destruct (IH _ _ Hs) as [s' Hs']. exists s'. exact Hs'. }
  destruct H as [s Hs]. exists s. unfold view_appointment. rewrite Hs.
  reflexivity.
Qed.

Lemma appointment_never_deleted_witness :
  exists s : Status,
    view_appointment "1"
      (run_all [Create (Sample.jane Sample.eleven None) Sample.now Sample.booked;
                Reject "1";
                Create (Sample.john Sample.eleven None) Sample.now [];
                Accept "1"]
         Sample.booked)
    = inl (AppointmentDB.set_status s
             (row_of (Sample.jane Sample.ten None) Sample.now)).
Proof.
  exact (appointment_never_deleted _ Sample.booked "1" _ eq_refl).
Defined.

Lemma update_status_Forall (P : AppointmentDB.t -> Prop)
    (i : string) (s : Status) (db : Store) :
  (forall r, P r -> P (AppointmentDB.set_status s r)) ->
  Forall P db -> Forall P (update_status i s db).
Proof.
  intros HP H. induction H as [|x rest Hx Hrest IH]; simpl; [constructor|].
  destruct (String.eqb _ i); constructor; auto.
Qed.

(** X9.  Every stored appointment carries what admission checked: in
    every table that admissions and transitions reach from the empty one,
    each row has its time on the hour between 9 and 18 and its date on the
    date of [created_at] or on one of the two days after it. *)
Theorem stored_rows_admitted (db : Store) (Hreach : reachable db) :
  Forall admitted_row db
  /\ (forall r : AppointmentDB.t,
         In r (view db) ->
         9 <= hour (AppointmentDB.appointment_time r) <= 18
         /\ minute (AppointmentDB.appointment_time r) = 0
         /\ 0 <= date_of (AppointmentDB.appointment_time r)
                 - date_of (AppointmentDB.created_at r) <= 2).
Proof.
  assert (Hall : Forall admitted_row db).
  { induction Hreach as [|op db Hreach IH]; [constructor|].
    destruct op as [new now seen | j | j]; simpl.
    - destruct (create_appointment_store new now seen db)
        as [E | (E & Hw & Hb)]; rewrite E; [exact IH|].
      apply Forall_app. split; [exact IH|]. constructor; [|constructor].
      split; [exact Hb|]. simpl. apply in_window_spec. exact Hw.
    - rewrite accept_appointment_store. apply update_status_Forall;
        [intros r Hrow; exact Hrow | exact IH].
    - rewrite reject_appointment_store. apply update_status_Forall;
        [intros r Hrow; exact Hrow | exact IH]. }
  split; [exact Hall|].
  intros r Hin. unfold view in Hin.
  destruct (proj1 (Forall_forall _ _) Hall r Hin) as [Hb Hd].
  apply business_hours_spec in Hb. lia.
Qed.

Lemma run_all_reachable (ops : list Op) (db : Store) :
  reachable db -> reachable (run_all ops db).
Proof.
  revert db. induction ops as [|op rest IH]; intros db H; simpl; [exact H|].
  apply IH, reachable_run, H.
Qed.

Lemma stored_rows_admitted_witness :
  Forall admitted_row
    (run_all [Create (Sample.jane Sample.ten None) Sample.now [];
              Create (Sample.john Sample.eleven (Some approved)) Sample.now [];
              Reject "1"] []).
Proof.
  refine (proj1 (stored_rows_admitted _ _)).
  apply run_all_reachable, reachable_empty.
Defined.

(** ** The shifted clock and created_at *)

(** [datetime + timedelta] moves the instant by the timedelta, whatever the
    fields of the value are. *)
Lemma add_instant (t : datetime) (td : timedelta) :
  instant (add t td) = instant t + total_us td.
Proof.
  unfold instant, add. cbn [dt_date hour minute second microsecond utcoffset].
  set (us := (dt_date t * seconds_per_day + hour t * 3600 + minute t * 60
              + second t) * us_per_second + microsecond t + total_us td).
  set (off := match utcoffset t with Some o => o | None => 0 end).
  set (s := (us mod us_per_day) / us_per_second).
  assert (H1 := Z.div_mod us us_per_day).
  assert (H2 := Z.div_mod (us mod us_per_day) us_per_second).
  assert (H3 := Z.div_mod s 3600).
  assert (H4 := Z.div_mod (s mod 3600) 60).
  assert (H5 : (us mod us_per_day) mod us_per_second = us mod us_per_second).
  { apply Z.mod_mod_divide. exists seconds_per_day. reflexivity. }
  fold s in H2. rewrite H5 in H2.
  unfold us_per_day, seconds_per_day, us_per_second in *.
  change (86400 * 1000000) with 86400000000 in *.
  assert (E : us = (dt_date t * 86400 + hour t * 3600 + minute t * 60
                    + second t) * 1000000 + microsecond t + total_us td)
    by reflexivity.
  lia.
Qed.

Lemma add_well_formed (t : datetime) (td : timedelta) :
  well_formed (add t td).
Proof.
  unfold well_formed, add.
  cbn [dt_date hour minute second microsecond utcoffset].
  set (us := (dt_date t * seconds_per_day + hour t * 3600 + minute t * 60
              + second t) * us_per_second + microsecond t + total_us td).
  set (s := (us mod us_per_day) / us_per_second).
  assert (Hs : 0 <= s < 86400).
  { subst s. unfold us_per_day, seconds_per_day, us_per_second.
    assert (H := Z.mod_pos_bound us (86400 * 1000000) eq_refl).
    split.
    - apply Z.div_pos; lia.
    - apply Z.div_lt_upper_bound; lia. }
  assert (Hr := Z.mod_pos_bound s 3600 eq_refl).
  unfold us_per_second.
  repeat split.
  - apply Z.div_pos; lia.
  - apply Z.div_lt_upper_bound; lia.
  - apply Z.div_pos; lia.
  - apply Z.div_lt_upper_bound; lia.
  - apply Z.mod_pos_bound. reflexivity.
  - apply Z.mod_pos_bound. reflexivity.
  - apply Z.mod_pos_bound. reflexivity.
  - apply Z.mod_pos_bound. reflexivity.
Qed.

(** X10.  The created_at of a row that admission writes is not the
    instant of the request: it is a well-formed value with the tzinfo of
    the clock value that denotes the instant 5 hours 30 minutes after it. *)
Theorem created_at_shifted
    (new : Appoint.t) (now : datetime) (seen db db' : Store)
    (code : Z) (message aid : string)
    (Hcreated : create_appointment_at new now seen db
                = (JSONResponse code message aid, db')) :
  exists r : AppointmentDB.t,
    view_appointment aid db' = inl r
    /\ instant (AppointmentDB.created_at r)
       = instant now + (5 * 3600 + 30 * 60) * 1000000
    /\ utcoffset (AppointmentDB.created_at r) = utcoffset now
    /\ well_formed (AppointmentDB.created_at r).
Proof.
  apply create_appointment_success in Hcreated.
  destruct Hcreated as (-> & -> & Hid & _).
  exists (row_of new now). split.
  - unfold view_appointment. rewrite first_by_id_app.
    apply first_by_id_absent in Hid. rewrite Hid.
    unfold first_by_id. simpl. rewrite String.eqb_refl. reflexivity.
  - cbn [row_of AppointmentDB.created_at]. split; [|split].
    + rewrite add_instant. reflexivity.
    + reflexivity.
    + apply add_well_formed.
Qed.

Lemma created_at_shifted_witness :
  exists r : AppointmentDB.t,
    view_appointment "1" Sample.booked = inl r
    /\ instant (AppointmentDB.created_at r)
       = instant Sample.now + (5 * 3600 + 30 * 60) * 1000000
    /\ utcoffset (AppointmentDB.created_at r) = Some 0
    /\ well_formed (AppointmentDB.created_at r).
Proof.
  exact (created_at_shifted (Sample.jane Sample.ten None) Sample.now [] []
           Sample.booked _ _ _ eq_refl).
Defined.

(** X11.  In terms of the calendar date of the UTC clock, the window of
    admissible dates is that date and the two days after it until 18:29,
    and moves one day ahead from 18:30 on: a request for the UTC date of
    the clock is then out of the window, and one for three days later is
    in it. *)
Theorem window_on_utc_clock (now t : datetime) (Hnow : well_formed now) :
  let late := 18 * 60 + 30 <=? hour now * 60 + minute now in
  let first_day := dt_date now + (if late then 1 else 0) in
  (in_window now t = true <-> first_day <= date_of t <= first_day + 2)
  /\ (late = true -> date_of t = dt_date now -> in_window now t = false)
  /\ (late = true -> date_of t = dt_date now + 3 -> in_window now t = true).
Proof.
  intros late first_day.
  assert (Hw : in_window now t = true <-> first_day <= date_of t <= first_day + 2).
  { rewrite in_window_spec, (today_ist_date now Hnow). reflexivity. }
  split; [exact Hw|]. subst first_day. split; intros Hl Hd; rewrite Hl in Hw.
  - destruct (in_window now t); [|reflexivity].
    apply proj1 in Hw. specialize (Hw eq_refl). lia.
  - apply Hw. lia.
Qed.

(** At 19:00 UTC on 2025-07-16 a request for 2025-07-16 is out of the
    window. *)
Lemma window_on_utc_clock_witness :
  in_window (utc 2025 7 16 19 0 0) (utc 2025 7 16 10 0 0) = false.
Proof.
  refine (proj1 (proj2 (window_on_utc_clock (utc 2025 7 16 19 0 0)
                          (utc 2025 7 16 10 0 0) _)) eq_refl eq_refl).
  unfold well_formed. simpl. unfold us_per_second. lia.
Defined.

(** X12.  Admission reads the clock for its date only: two requests for
    the same candidate on the same table at two clock values of one
    shifted date get the same answer, so that a slot of today can be
    booked after its hour has passed. *)
Theorem admission_ignores_time_of_day
    (new : Appoint.t) (now later : datetime) (seen db : Store)
    (Hday : date_of (add now ist_offset) = date_of (add later ist_offset)) :
  fst (create_appointment_at new now seen db)
  = fst (create_appointment_at new later seen db).
Proof.
  assert (Hw : in_window now (Appoint.appointment_time new)
               = in_window later (Appoint.appointment_time new)).
  { unfold in_window. rewrite Hday. reflexivity. }
  unfold create_appointment_at. rewrite Hw.
  destruct (first_by_id _ seen); [reflexivity|].
  destruct (first_by_time _ seen); [reflexivity|].
  destruct (in_window later _); simpl; [|reflexivity].
  destruct (business_hours _); simpl; [|reflexivity].
  unfold add_commit. cbn [AppointmentDB.id AppointmentDB.appointment_time].
  destruct (_ || _); reflexivity.
Qed.

(** At 17:00 UTC, 22:30 on the shifted clock, ten o'clock of the same day
    is still admitted. *)
Lemma admission_ignores_time_of_day_witness :
  fst (create_appointment_at (Sample.jane Sample.ten None)
         (utc 2025 7 16 17 0 0) [] [])
  = JSONResponse HTTP_200_OK "Appointment created successfully" "1".
Proof.
  rewrite <- (admission_ignores_time_of_day (Sample.jane Sample.ten None)
                Sample.now (utc 2025 7 16 17 0 0) [] [] eq_refl).
  reflexivity.
Defined.
